(** * mono-dl-wasm.c: the WebAssembly backend of Mono's dynamic loader

    A shallow embedding of [src/mono/mono/utils/mono-dl-wasm.c] and the
    properties the loader's specification states about it.

    The file has seven functions.  Four of them are pure
    ([mono_dl_get_so_prefix], [mono_dl_get_so_suffixes],
    [mono_dl_get_system_dir], [mono_dl_convert_flags]) and are embedded as
    Rocq values and functions.  The other four take or return pointers to
    objects that live in memory ([MonoDl *], [MonoError *], [gchar *]); they
    are embedded as computations over an explicit memory, so that "writes
    nothing" and "allocates a fresh block" are statements about that
    memory. *)

From Stdlib Require Import ZArith Bool String List Lia.
From stdpp Require Import base gmap strings.

Local Open Scope Z_scope.

(** ** C integers

    [int] is a 32-bit two's complement integer, embedded as a [Z] in
    [INT_MIN .. INT_MAX].  The only operators the file uses on [int] are
    [&] and [|], which cannot overflow: on in-range operands [Z.land] and
    [Z.lor] are again in range (lemmas [land_in_range] and [lor_in_range]
    below), so no wrap-around has to be applied after them. *)
Module CInt.

Definition INT_MIN : Z := - 2 ^ 31.
Definition INT_MAX : Z := 2 ^ 31 - 1.

Definition in_range (z : Z) : Prop := INT_MIN <= z <= INT_MAX.

(** The value an [int] expression has as a condition: C reads every
    non-zero value as true. *)
Definition truth (z : Z) : bool := negb (z =? 0).

End CInt.

(** ** The headers the translation unit includes

    [mono/utils/mono-dl.h] declares the portable flags [MONO_DL_LAZY],
    [MONO_DL_LOCAL] and [MONO_DL_GLOBAL]; [<dlfcn.h>] declares the host's
    [RTLD_*] flags.  Neither header is part of the file under study, so
    their constants are parameters of the embedding: every theorem holds
    for all values of them unless it says otherwise. *)
Class mono_dl_h : Type := {
  MONO_DL_LAZY : Z;
  MONO_DL_LOCAL : Z;
  MONO_DL_GLOBAL : Z
}.

Class dlfcn_h : Type := {
  RTLD_LAZY : Z;
  RTLD_NOW : Z;
  RTLD_GLOBAL : Z;
  RTLD_LOCAL : Z
}.

(** The build variants of the file.  [#ifndef HOST_WASI] guards both the
    inclusion of [<dlfcn.h>] and the body of [mono_dl_convert_flags]: with
    [HOST_WASI] defined there are no [RTLD_*] constants at all, without it
    the host's [<dlfcn.h>] provides them. *)
Inductive host : Type :=
| HOST_WASI : host
| HOST_DLFCN : dlfcn_h -> host.

(** ** Platform-shape queries (lines 21-41) *)

(** [const char *] results are embedded as [option string]: [None] is the
    null pointer, [Some s] a pointer to the NUL-terminated string [s]. *)
Definition mono_dl_get_so_prefix : option string := Some EmptyString.

(** The static array [suffixes] has exactly the two initialisers of its
    brace list; it is not terminated by a null pointer, the empty string
    is its last element. *)
Definition mono_dl_get_so_suffixes : list string :=
  ".wasm"%string :: EmptyString :: nil.

Definition mono_dl_get_system_dir : option string := None.

(** ** The flag translator (lines 57-78) *)
Section ConvertFlags.

Context {portable : mono_dl_h}.

(** [lflags] is updated in place by two [if] statements; each [let]
    below is one of them.  In the first condition [&] binds tighter
    than [&&], and [!] yields true exactly on zero. *)
Definition mono_dl_convert_flags (h : host) (mono_flags native_flags : Z) : Z :=
  let lflags := native_flags in
  match h with
  | HOST_WASI => lflags
  | HOST_DLFCN dl =>
      let lflags :=
        if CInt.truth (Z.land mono_flags MONO_DL_GLOBAL)
           && negb (CInt.truth (Z.land mono_flags MONO_DL_LOCAL))
        then Z.lor lflags RTLD_GLOBAL
        else Z.lor lflags RTLD_LOCAL in
      let lflags :=
        if CInt.truth (Z.land mono_flags MONO_DL_LAZY)
        then Z.lor lflags RTLD_LAZY
        else Z.lor lflags RTLD_NOW in
      lflags
  end.

End ConvertFlags.

(** ** Memory and the inert operations (lines 44-54 and 80-90) *)

(** A non-null address.  A C pointer is an [option] of it, the null
    pointer being [None]. *)
Abbreviation loc := positive.
Abbreviation ptr := (option positive).
Definition NULL : ptr := None.

Section Loader.

(** [MonoDl] and [MonoError] are declared in headers outside the file,
    which only passes pointers to them around: they stay abstract. *)
Context {MonoDl MonoError : Type}.

(** The objects the operations of the file can reach through their
    pointer arguments and results: the heap blocks holding C strings
    (what a [gchar *] points to), the loader's module records and the
    callers' error sinks. *)
Record memory : Type := Memory {
  c_strings : gmap loc string;
  modules : gmap loc MonoDl;
  errors : gmap loc MonoError
}.

(** A C function body: from the memory at the call to its result and
    the memory at its return. *)
Definition C (A : Type) : Type := memory -> A * memory.

Definition ret {A : Type} (a : A) : C A := fun m => (a, m).

Definition bind {A B : Type} (c : C A) (k : A -> C B) : C B :=
  fun m => let (a, m') := c m in k a m'.

Definition result {A : Type} (c : C A) (m : memory) : A := fst (c m).
Definition final {A : Type} (c : C A) (m : memory) : memory := snd (c m).

(** What a [MonoError *] and a [MonoDl *] point to; nothing for the
    null pointer and for an address that holds no such object. *)
Definition error_at (error : ptr) (m : memory) : option MonoError :=
  match error with
  | None => None
  | Some l => errors m !! l
  end.

Definition module_at (module : ptr) (m : memory) : option MonoDl :=
  match module with
  | None => None
  | Some l => modules m !! l
  end.

(** Modelled from the spec: [g_strdup] and [g_free] are eglib's string
    allocator and the runtime's deallocator, neither is defined in the
    file.  The specification says of the error-string accessor that it
    returns "a freshly allocated empty string (ownership transferred to
    caller; caller releases)" and that the caller releases it "using the
    runtime's standard deallocation": [g_strdup str] takes a block that
    is not in use, stores a copy of [str] in it and returns its address;
    [g_free] gives a block back and does nothing on the null pointer. *)
Definition g_strdup (str : string) : C ptr := fun m =>
  let l := fresh (dom (c_strings m)) in
  (Some l, Memory (<[l := str]> (c_strings m)) (modules m) (errors m)).

Definition g_free (p : ptr) : C unit := fun m =>
  match p with
  | None => (tt, m)
  | Some l => (tt, Memory (delete l (c_strings m)) (modules m) (errors m))
  end.

(** [const char *] arguments are read-only and embedded by value
    ([None] for a null pointer); [MonoDl *] and [MonoError *] arguments
    are addresses into [modules] and [errors]; the [void *] results are
    addresses. *)
Definition mono_dl_lookup_symbol (module : ptr) (name : option string) : C ptr :=
  ret NULL.

Definition mono_dl_current_error_string : C ptr :=
  g_strdup EmptyString.

Definition mono_dl_open_file (file : option string) (flags : Z) (error : ptr) : C ptr :=
  ret NULL.

Definition mono_dl_close_handle (module : ptr) (error : ptr) : C unit :=
  ret tt.

End Loader.

Arguments memory : clear implicits.
Arguments C : clear implicits.

(** ** The specification's vocabulary *)

(** A portable flag word [F] requests a flag when it has a bit in common
    with the flag's constant. *)
Definition requests (flag F : Z) : Prop := Z.land F flag <> 0.

(** What the specification asks of the portable enumeration in its
    scenarios: [MONO_DL_GLOBAL] is a flag of its own, sharing no bit with
    [MONO_DL_LOCAL] or [MONO_DL_LAZY]. *)
Definition global_is_separate (portable : mono_dl_h) : Prop :=
  MONO_DL_GLOBAL <> 0
  /\ Z.land MONO_DL_GLOBAL MONO_DL_LOCAL = 0
  /\ Z.land MONO_DL_GLOBAL MONO_DL_LAZY = 0.

(** Sample values of the parameters, used to run the embedding: the
    portable flags as an enumeration of single bits and two hosts, one
    whose [RTLD_LOCAL] is zero (as in musl and glibc) and one whose four
    flags are four different bits. *)
Definition portable_bits : mono_dl_h :=
  {| MONO_DL_LAZY := 1; MONO_DL_LOCAL := 2; MONO_DL_GLOBAL := 4 |}.

Definition dlfcn_local_zero : dlfcn_h :=
  {| RTLD_LAZY := 1; RTLD_NOW := 2; RTLD_GLOBAL := 256; RTLD_LOCAL := 0 |}.

Definition dlfcn_four_bits : dlfcn_h :=
  {| RTLD_LAZY := 1; RTLD_NOW := 2; RTLD_LOCAL := 4; RTLD_GLOBAL := 8 |}.

(** A flag word [r] has the flag [f] when every bit of [f] is set in
    [r]; this is what the host's loader tests. *)
Definition has_flag (f r : Z) : Prop := Z.land r f = f.

(** The host's loader flags are C [int]s. *)
Definition host_in_range (h : host) : Prop :=
  match h with
  | HOST_WASI => True
  | HOST_DLFCN dl =>
      CInt.in_range RTLD_LAZY /\ CInt.in_range RTLD_NOW
      /\ CInt.in_range RTLD_GLOBAL /\ CInt.in_range RTLD_LOCAL
  end.

(** All the bits the host's loader flags have between them; none when
    the host has no loader flags. *)
Definition host_bits (h : host) : Z :=
  match h with
  | HOST_WASI => 0
  | HOST_DLFCN dl =>
      Z.lor (Z.lor RTLD_GLOBAL RTLD_LOCAL) (Z.lor RTLD_LAZY RTLD_NOW)
  end.

(** A sample memory: one string block in use at address 1, one error
    sink at address 7, no module. *)
Definition sample_memory : memory unit unit :=
  Memory {[ 1%positive := "libfoo"%string ]} ∅ {[ 7%positive := tt ]}.

(** * Properties *)

(** ** C integers *)

Lemma in_range_shiftr (z : Z) :
  CInt.in_range z <-> Z.shiftr z 31 = 0 \/ Z.shiftr z 31 = -1.
Proof.
  unfold CInt.in_range, CInt.INT_MIN, CInt.INT_MAX.
  rewrite Z.shiftr_div_pow2 by lia.
  change (2 ^ 31) with 2147483648.
  pose proof (Z.div_mod z 2147483648 ltac:(lia)) as Hdm.
  pose proof (Z.mod_pos_bound z 2147483648 ltac:(lia)) as Hb.
  lia.
Qed.

Lemma lor_in_range (a b : Z) :
  CInt.in_range a -> CInt.in_range b -> CInt.in_range (Z.lor a b).
Proof.
  rewrite !in_range_shiftr, Z.shiftr_lor.
  intros [-> | ->] [-> | ->]; cbn; auto.
Qed.

Lemma land_in_range (a b : Z) :
  CInt.in_range a -> CInt.in_range b -> CInt.in_range (Z.land a b).
Proof.
  rewrite !in_range_shiftr, Z.shiftr_land.
  intros [-> | ->] [-> | ->]; cbn; auto.
Qed.

Lemma truth_spec (flag F : Z) :
  reflect (requests flag F) (CInt.truth (Z.land F flag)).
Proof.
  unfold CInt.truth, requests.
  destruct (Z.eqb_spec (Z.land F flag) 0) as [Heq | Hne]; cbn;
    constructor; [intros H; apply H, Heq | exact Hne].
Qed.

Section ConvertFlagsFacts.

Context {portable : mono_dl_h}.

(** The translator maps [int]s to an [int] when the host's constants
    are [int]s: the embedding never leaves the range of the C type. *)
Lemma mono_dl_convert_flags_in_range (h : host) (F B : Z) :
  match h with
  | HOST_WASI => True
  | HOST_DLFCN dl =>
      CInt.in_range RTLD_LAZY /\ CInt.in_range RTLD_NOW
      /\ CInt.in_range RTLD_GLOBAL /\ CInt.in_range RTLD_LOCAL
  end ->
  CInt.in_range B ->
  CInt.in_range (mono_dl_convert_flags h F B).
Proof.
  destruct h as [| dl]; cbn; [tauto |].
  intros (Hlazy & Hnow & Hglobal & Hlocal) HB.
  repeat match goal with
         | |- context [if ?c then _ else _] => destruct c
         end; auto using lor_in_range.
Qed.

(** The closed form of the translator on a host with loader flags. *)
Lemma mono_dl_convert_flags_dlfcn (dl : dlfcn_h) (F B : Z) :
  mono_dl_convert_flags (HOST_DLFCN dl) F B =
  Z.lor (Z.lor B
           (if CInt.truth (Z.land F MONO_DL_GLOBAL)
               && negb (CInt.truth (Z.land F MONO_DL_LOCAL))
            then RTLD_GLOBAL else RTLD_LOCAL))
        (if CInt.truth (Z.land F MONO_DL_LAZY) then RTLD_LAZY else RTLD_NOW).
Proof.
  cbn. do 2 match goal with
            | |- context [if ?c then _ else _] => destruct c
            end; reflexivity.
Qed.

End ConvertFlagsFacts.

(** ** The flag translator *)

Section ConvertFlagsClaims.

Context {portable : mono_dl_h}.

(** C1.  On a host with loader flags, for every portable flag word [F]
    and baseline [B], the translator ORs [RTLD_GLOBAL] into the
    baseline exactly when [F] requests GLOBAL and does not request
    LOCAL, and ORs [RTLD_LOCAL] into it otherwise; when [F] requests
    both GLOBAL and LOCAL the scope contribution is [RTLD_LOCAL], not
    [RTLD_GLOBAL].  The remaining contribution is the binding flag. *)
Theorem convert_flags_scope (dl : dlfcn_h) (F B : Z) :
  exists binding : Z,
    (binding = RTLD_LAZY \/ binding = RTLD_NOW)
    /\ (requests MONO_DL_GLOBAL F /\ ~ requests MONO_DL_LOCAL F ->
        mono_dl_convert_flags (HOST_DLFCN dl) F B
        = Z.lor (Z.lor B RTLD_GLOBAL) binding)
    /\ (~ (requests MONO_DL_GLOBAL F /\ ~ requests MONO_DL_LOCAL F) ->
        mono_dl_convert_flags (HOST_DLFCN dl) F B
        = Z.lor (Z.lor B RTLD_LOCAL) binding)
    /\ (requests MONO_DL_GLOBAL F /\ requests MONO_DL_LOCAL F ->
        mono_dl_convert_flags (HOST_DLFCN dl) F B
        = Z.lor (Z.lor B RTLD_LOCAL) binding).
Proof.
  rewrite mono_dl_convert_flags_dlfcn.
  exists (if CInt.truth (Z.land F MONO_DL_LAZY) then RTLD_LAZY else RTLD_NOW).
  split; [destruct (CInt.truth (Z.land F MONO_DL_LAZY)); auto |].
  destruct (truth_spec MONO_DL_GLOBAL F), (truth_spec MONO_DL_LOCAL F);
    cbn; tauto.
Qed.

(** C2.  On a host with loader flags, for every portable flag word [F]
    and baseline [B], the translator ORs [RTLD_LAZY] into the result
    exactly when [F] requests LAZY and ORs [RTLD_NOW] into it
    otherwise.  In particular, when GLOBAL is a portable flag of its
    own, translating GLOBAL over the baseline 0 yields
    [RTLD_GLOBAL | RTLD_NOW]. *)
Theorem convert_flags_binding (dl : dlfcn_h) :
  (forall F B : Z,
      exists scope : Z,
        (scope = RTLD_GLOBAL \/ scope = RTLD_LOCAL)
        /\ (requests MONO_DL_LAZY F ->
            mono_dl_convert_flags (HOST_DLFCN dl) F B
            = Z.lor (Z.lor B scope) RTLD_LAZY)
        /\ (~ requests MONO_DL_LAZY F ->
            mono_dl_convert_flags (HOST_DLFCN dl) F B
            = Z.lor (Z.lor B scope) RTLD_NOW))
  /\ (global_is_separate portable ->
      mono_dl_convert_flags (HOST_DLFCN dl) MONO_DL_GLOBAL 0
      = Z.lor RTLD_GLOBAL RTLD_NOW).
Proof.
  split.
  - intros F B. rewrite mono_dl_convert_flags_dlfcn.
    exists (if CInt.truth (Z.land F MONO_DL_GLOBAL)
               && negb (CInt.truth (Z.land F MONO_DL_LOCAL))
            then RTLD_GLOBAL else RTLD_LOCAL).
    split; [destruct (_ && _); auto |].
    destruct (truth_spec MONO_DL_LAZY F); tauto.
  - intros (Hne & Hlocal & Hlazy).
    rewrite mono_dl_convert_flags_dlfcn, Hlocal, Hlazy, Z.land_diag.
    unfold CInt.truth. destruct (Z.eqb_spec MONO_DL_GLOBAL 0); [tauto |].
    reflexivity.
Qed.

(** C3.  For every build variant, portable flag word [F] and baseline
    [B], every bit set in [B] is set in the translator's result, which
    is [B] ORed with the translator's contributions. *)
Theorem convert_flags_keeps_baseline (h : host) (F B : Z) :
  (forall n : Z,
      Z.testbit B n = true ->
      Z.testbit (mono_dl_convert_flags h F B) n = true)
  /\ (exists contributions : Z,
         mono_dl_convert_flags h F B = Z.lor B contributions).
Proof.
  assert (exists c : Z, mono_dl_convert_flags h F B = Z.lor B c) as [c Hc].
  { destruct h as [| dl].
    - exists 0. cbn. now rewrite Z.lor_0_r.
    - rewrite mono_dl_convert_flags_dlfcn, <- Z.lor_assoc. eauto. }
  split; [| eauto].
  intros n Hn. rewrite Hc, Z.lor_spec, Hn. reflexivity.
Qed.

(** C4.  Built for WASI, the translator returns the baseline unchanged
    whatever the portable flag word is; it is a total function, so
    there is no error to report. *)
Theorem convert_flags_wasi (F B : Z) :
  mono_dl_convert_flags HOST_WASI F B = B.
Proof. reflexivity. Qed.

(** The translator reads [mono_flags] only through the three
    conditions of its [if] statements. *)
Lemma convert_flags_same_requests (h : host) (F1 F2 B : Z) :
  (requests MONO_DL_GLOBAL F1 <-> requests MONO_DL_GLOBAL F2) ->
  (requests MONO_DL_LOCAL F1 <-> requests MONO_DL_LOCAL F2) ->
  (requests MONO_DL_LAZY F1 <-> requests MONO_DL_LAZY F2) ->
  mono_dl_convert_flags h F1 B = mono_dl_convert_flags h F2 B.
Proof.
  intros Hg Hl Hz. destruct h as [| dl]; [reflexivity |].
  rewrite !mono_dl_convert_flags_dlfcn.
  destruct (truth_spec MONO_DL_GLOBAL F1), (truth_spec MONO_DL_GLOBAL F2);
    try tauto;
    destruct (truth_spec MONO_DL_LOCAL F1), (truth_spec MONO_DL_LOCAL F2);
    try tauto;
    destruct (truth_spec MONO_DL_LAZY F1), (truth_spec MONO_DL_LAZY F2);
    try tauto; reflexivity.
Qed.

(** C10.  The result depends only on the GLOBAL, LOCAL and LAZY bits
    of the portable flag word and on the baseline: two flag words that
    agree on those bits are translated alike over any baseline, in
    every build variant. *)
Theorem convert_flags_other_bits_ignored (h : host) (F1 F2 B : Z) :
  Z.land F1 MONO_DL_GLOBAL = Z.land F2 MONO_DL_GLOBAL ->
  Z.land F1 MONO_DL_LOCAL = Z.land F2 MONO_DL_LOCAL ->
  Z.land F1 MONO_DL_LAZY = Z.land F2 MONO_DL_LAZY ->
  mono_dl_convert_flags h F1 B = mono_dl_convert_flags h F2 B.
Proof.
  intros Hg Hl Hz.
  apply convert_flags_same_requests; unfold requests;
    rewrite ?Hg, ?Hl, ?Hz; reflexivity.
Qed.

End ConvertFlagsClaims.

(** The translator run on the sample values: portable GLOBAL is 4, LOCAL
    is 2 and LAZY is 1. *)

(** GLOBAL and LOCAL together over the baseline [0x1000], on the host
    whose flags are four bits: LOCAL wins. *)
Lemma convert_flags_scope_witness :
  (requests (@MONO_DL_GLOBAL portable_bits) 6
   /\ requests (@MONO_DL_LOCAL portable_bits) 6)
  /\ exists binding : Z,
      (binding = @RTLD_LAZY dlfcn_four_bits
       \/ binding = @RTLD_NOW dlfcn_four_bits)
      /\ mono_dl_convert_flags (portable := portable_bits)
           (HOST_DLFCN dlfcn_four_bits) 6 4096
         = Z.lor (Z.lor 4096 (@RTLD_LOCAL dlfcn_four_bits)) binding.
Proof.
  assert (requests (@MONO_DL_GLOBAL portable_bits) 6
          /\ requests (@MONO_DL_LOCAL portable_bits) 6) as Hreq
    by (split; vm_compute; discriminate).
  split; [exact Hreq |].
  destruct (convert_flags_scope (portable := portable_bits)
              dlfcn_four_bits 6 4096) as (binding & Hb & _ & _ & Htie).
  exists binding. split; [exact Hb | exact (Htie Hreq)].
Defined.

(** Scenario S2: GLOBAL over the baseline 0, on the host whose
    [RTLD_LOCAL] is zero. *)
Lemma convert_flags_binding_witness :
  global_is_separate portable_bits
  /\ mono_dl_convert_flags (portable := portable_bits)
       (HOST_DLFCN dlfcn_local_zero) 4 0
     = 258.
Proof.
  assert (global_is_separate portable_bits) as Hsep
    by (repeat split; vm_compute; discriminate).
  split; [exact Hsep |].
  exact (proj2 (convert_flags_binding (portable := portable_bits)
                  dlfcn_local_zero) Hsep).
Defined.

(** Bit 12 of the baseline [0x1000] survives the translation. *)
Lemma convert_flags_keeps_baseline_witness :
  Z.testbit 4096 12 = true
  /\ Z.testbit (mono_dl_convert_flags (portable := portable_bits)
                  (HOST_DLFCN dlfcn_four_bits) 7 4096) 12 = true.
Proof.
  split; [reflexivity |].
  apply (proj1 (convert_flags_keeps_baseline (portable := portable_bits)
                  (HOST_DLFCN dlfcn_four_bits) 7 4096) 12).
  reflexivity.
Defined.

(** The flag words 4 and 76 differ in bits 3 and 6 only, which no
    portable flag names. *)
Lemma convert_flags_other_bits_ignored_witness :
  (Z.land 4 (@MONO_DL_GLOBAL portable_bits)
   = Z.land 76 (@MONO_DL_GLOBAL portable_bits)
   /\ Z.land 4 (@MONO_DL_LOCAL portable_bits)
      = Z.land 76 (@MONO_DL_LOCAL portable_bits)
   /\ Z.land 4 (@MONO_DL_LAZY portable_bits)
      = Z.land 76 (@MONO_DL_LAZY portable_bits))
  /\ mono_dl_convert_flags (portable := portable_bits)
       (HOST_DLFCN dlfcn_four_bits) 4 0
     = mono_dl_convert_flags (portable := portable_bits)
         (HOST_DLFCN dlfcn_four_bits) 76 0.
Proof.
  split; [repeat split |].
  apply (convert_flags_other_bits_ignored (portable := portable_bits));
    reflexivity.
Defined.

(** Scenario S3: GLOBAL, LOCAL and LAZY over the baseline [0x1000]. *)
Example scenario_S3 :
  mono_dl_convert_flags (portable := portable_bits)
    (HOST_DLFCN dlfcn_four_bits) 7 4096
  = Z.lor (Z.lor 4096 (@RTLD_LOCAL dlfcn_four_bits))
      (@RTLD_LAZY dlfcn_four_bits).
Proof. reflexivity. Qed.

(** Scenario S4: any flag word over the baseline [0x2A], built for
    WASI. *)
Example scenario_S4 :
  mono_dl_convert_flags (portable := portable_bits) HOST_WASI 7 42 = 42.
Proof. reflexivity. Qed.

(** When GLOBAL and LOCAL are both requested the result has no bit of
    [RTLD_GLOBAL] beyond those of the baseline and of the other host
    flags. *)
Lemma convert_flags_tie_no_global_bit
  {portable : mono_dl_h} (dl : dlfcn_h) (F B n : Z) :
  requests MONO_DL_GLOBAL F -> requests MONO_DL_LOCAL F ->
  Z.testbit B n = false ->
  Z.testbit RTLD_LOCAL n = false ->
  Z.testbit RTLD_LAZY n = false ->
  Z.testbit RTLD_NOW n = false ->
  Z.testbit (mono_dl_convert_flags (HOST_DLFCN dl) F B) n = false.
Proof.
  intros Hg Hl HB Hlocal Hlazy Hnow.
  rewrite mono_dl_convert_flags_dlfcn.
  destruct (truth_spec MONO_DL_GLOBAL F), (truth_spec MONO_DL_LOCAL F);
    try tauto; cbn.
  destruct (CInt.truth _);
    rewrite !Z.lor_spec, HB, Hlocal, ?Hlazy, ?Hnow; reflexivity.
Qed.

(** ** Platform-shape queries *)

(** C5.  The library-name prefix is the empty string, the suffix list is
    the two-element list of [".wasm"] followed by the empty string, and
    there is no system library directory. *)
Theorem platform_shape :
  mono_dl_get_so_prefix = Some EmptyString
  /\ mono_dl_get_so_suffixes = ".wasm"%string :: EmptyString :: nil
  /\ mono_dl_get_system_dir = None.
Proof. repeat split. Qed.

(** The same list, read the way the probing loop does: its head, its
    last element and its length. *)
Lemma so_suffixes_shape :
  hd_error mono_dl_get_so_suffixes = Some ".wasm"%string
  /\ List.last mono_dl_get_so_suffixes "?"%string = EmptyString
  /\ length mono_dl_get_so_suffixes = 2%nat.
Proof. repeat split. Qed.

(** ** The inert operations *)

Section LoaderClaims.

Context {MonoDl MonoError : Type}.

Implicit Types m : memory MonoDl MonoError.

(** The allocator returns the address of a block that was not in use,
    and changes nothing but that block. *)
Lemma g_strdup_fresh (str : string) m :
  exists l : loc,
    result (g_strdup str) m = Some l
    /\ c_strings m !! l = None
    /\ final (g_strdup str) m
       = Memory (<[l := str]> (c_strings m)) (modules m) (errors m).
Proof.
  exists (fresh (dom (c_strings m))).
  split; [reflexivity |]. split; [| reflexivity].
  apply not_elem_of_dom, is_fresh.
Qed.

(** Releasing a block right after its allocation restores the memory. *)
Lemma g_free_g_strdup (str : string) m :
  final (bind (g_strdup str) g_free) m = m.
Proof.
  destruct m as [cs ms es]. unfold final, bind, g_strdup, g_free; cbn.
  f_equal. apply delete_insert_id, not_elem_of_dom, is_fresh.
Qed.

(** C6.  [mono_dl_open_file] returns the null pointer for every file
    name, flag word and error sink, in every memory. *)
Theorem open_file_returns_null
  (file : option string) (flags : Z) (error : ptr) m :
  result (mono_dl_open_file file flags error) m = NULL.
Proof. reflexivity. Qed.

(** C7.  [mono_dl_lookup_symbol] returns the null pointer for every
    module handle and symbol name, in every memory. *)
Theorem lookup_symbol_returns_null
  (module : ptr) (name : option string) m :
  result (mono_dl_lookup_symbol module name) m = NULL.
Proof. reflexivity. Qed.

(** C8.  [mono_dl_current_error_string] returns a non-null pointer to a
    block that was not in use before the call and holds the empty
    string after it; nothing else in memory changes, and the caller can
    release the block, which restores the memory of before the call.
    A second call returns a different block, and both blocks hold the
    empty string afterwards. *)
Theorem current_error_string_fresh m :
  let m1 := final mono_dl_current_error_string m in
  let m2 := final mono_dl_current_error_string m1 in
  exists l1 l2 : loc,
    result mono_dl_current_error_string m = Some l1
    /\ result mono_dl_current_error_string m1 = Some l2
    /\ c_strings m !! l1 = None
    /\ c_strings m1 !! l1 = Some EmptyString
    /\ (forall l : loc, l <> l1 -> c_strings m1 !! l = c_strings m !! l)
    /\ modules m1 = modules m
    /\ errors m1 = errors m
    /\ final (g_free (Some l1)) m1 = m
    /\ l2 <> l1
    /\ c_strings m1 !! l2 = None
    /\ c_strings m2 !! l1 = Some EmptyString
    /\ c_strings m2 !! l2 = Some EmptyString.
Proof.
  intros m1 m2.
  destruct (g_strdup_fresh EmptyString m) as (l1 & Hr1 & Hfresh1 & Hm1).
  destruct (g_strdup_fresh EmptyString m1) as (l2 & Hr2 & Hfresh2 & Hm2).
  fold (@mono_dl_current_error_string MonoDl MonoError) in Hr1, Hm1, Hr2, Hm2.
  fold m1 in Hm1. fold m2 in Hm2.
  assert (c_strings m1 !! l1 = Some EmptyString) as Hlive1
    by (rewrite Hm1; cbn; apply lookup_insert_eq).
  assert (l2 <> l1) as Hne by congruence.
  assert (final (g_free (Some l1)) m1 = m) as Hfree.
  { rewrite Hm1. destruct m as [cs ms es]; cbn in *.
    unfold final, g_free; cbn. f_equal. now apply delete_insert_id. }
  exists l1, l2.
  split; [exact Hr1 |]. split; [exact Hr2 |].
  split; [exact Hfresh1 |]. split; [exact Hlive1 |].
  split; [intros l Hl; rewrite Hm1; cbn; now apply lookup_insert_ne |].
  split; [reflexivity |]. split; [reflexivity |].
  split; [exact Hfree |]. split; [exact Hne |]. split; [exact Hfresh2 |].
  rewrite Hm2; cbn. split.
  - now rewrite lookup_insert_ne.
  - apply lookup_insert_eq.
Qed.

(** C9.  [mono_dl_open_file] and [mono_dl_close_handle] return with the
    memory they were called with, for every argument and every memory:
    no error sink is written, the one passed in [error] included, and
    closing does nothing to any module, whatever the handle, null or
    not.  Of the other two operations that run on memory,
    [mono_dl_lookup_symbol] changes nothing either and
    [mono_dl_current_error_string] leaves every error sink and module
    as it was. *)
Theorem error_sink_untouched m :
  (forall (file : option string) (flags : Z) (error : ptr),
      final (mono_dl_open_file file flags error) m = m
      /\ error_at error (final (mono_dl_open_file file flags error) m)
         = error_at error m)
  /\ (forall module error : ptr,
         mono_dl_close_handle module error m = (tt, m)
         /\ error_at error (final (mono_dl_close_handle module error) m)
            = error_at error m
         /\ module_at module (final (mono_dl_close_handle module error) m)
            = module_at module m)
  /\ (forall (module : ptr) (name : option string),
         final (mono_dl_lookup_symbol module name) m = m)
  /\ errors (final mono_dl_current_error_string m) = errors m
  /\ modules (final mono_dl_current_error_string m) = modules m.
Proof. repeat split. Qed.

End LoaderClaims.

(** The accessor run on the sample memory, where address 1 is taken: the
    block it returns is at address 2 and the block at address 1 keeps its
    content. *)
Lemma current_error_string_fresh_witness :
  (1 <> 2)%positive
  /\ result mono_dl_current_error_string sample_memory = Some 2%positive
  /\ c_strings (final mono_dl_current_error_string sample_memory) !! 1%positive
     = c_strings sample_memory !! 1%positive.
Proof.
  assert (1 <> 2)%positive as Hne by discriminate.
  destruct (current_error_string_fresh sample_memory)
    as (l1 & l2 & Hr1 & _ & _ & _ & Hframe & _).
  assert (l1 = 2%positive) as -> by (vm_compute in Hr1; congruence).
  split; [exact Hne |]. split; [exact Hr1 | exact (Hframe 1%positive Hne)].
Defined.

(** Scenario S5: opening ["libfoo"] with no flags and the error sink at
    address 7 returns the null pointer and leaves the memory as it was. *)
Example scenario_S5 :
  mono_dl_open_file (Some "libfoo"%string) 0 (Some 7%positive) sample_memory
  = (NULL, sample_memory).
Proof. reflexivity. Qed.

(** Scenario S6: the accessor returns a non-null pointer to an empty
    string, and releasing it leaves no block behind. *)
Example scenario_S6 :
  result mono_dl_current_error_string sample_memory = Some 2%positive
  /\ c_strings (final mono_dl_current_error_string sample_memory) !! 2%positive
     = Some EmptyString
  /\ final (bind mono_dl_current_error_string g_free) sample_memory
     = sample_memory.
Proof.
  split; [reflexivity |]. split; [reflexivity |].
  apply (g_free_g_strdup EmptyString sample_memory).
Qed.

(** ** Further properties of the flag translator *)

(** Equalities between nests of [Z.lor] and [Z.land], bit by bit. *)
Ltac bitwise :=
  apply Z.bits_inj'; intros ? _;
  repeat first [rewrite Z.lor_spec | rewrite Z.land_spec | rewrite Z.bits_0];
  repeat match goal with
         | |- context [Z.testbit ?a ?n] => destruct (Z.testbit a n)
         end;
  reflexivity.

(** Case analysis on the conditions of the two [if] statements. *)
Ltac by_conditions :=
  rewrite ?mono_dl_convert_flags_dlfcn;
  repeat match goal with
         | |- context [CInt.truth ?c] => destruct (CInt.truth c)
         end;
  cbn [andb negb].

Section ConvertFlagsAlgebra.

Context {portable : mono_dl_h}.

(** X1.  What the translator adds does not depend on the baseline: the
    result over [B] is [B] ORed with the result over the empty baseline,
    in both build variants. *)
Theorem convert_flags_over_zero (h : host) (F B : Z) :
  mono_dl_convert_flags h F B = Z.lor B (mono_dl_convert_flags h F 0).
Proof.
  destruct h as [| dl].
  - cbn. now rewrite Z.lor_0_r.
  - by_conditions; bitwise.
Qed.

(** X2.  Translating the same flag word a second time over the result
    of the first translation changes nothing. *)
Theorem convert_flags_idempotent (h : host) (F B : Z) :
  mono_dl_convert_flags h F (mono_dl_convert_flags h F B)
  = mono_dl_convert_flags h F B.
Proof.
  destruct h as [| dl]; [reflexivity |].
  by_conditions; bitwise.
Qed.

(** X3.  Two translations in a row commute: translating [F1] over the
    translation of [F2] gives the same flags as the other order. *)
Theorem convert_flags_commute (h : host) (F1 F2 B : Z) :
  mono_dl_convert_flags h F1 (mono_dl_convert_flags h F2 B)
  = mono_dl_convert_flags h F2 (mono_dl_convert_flags h F1 B).
Proof.
  destruct h as [| dl]; [reflexivity |].
  by_conditions; bitwise.
Qed.

(** X4.  When the host's loader flags and the baseline are C [int]s, so
    is the result, whatever the portable flag word is: the two [|=] never
    leave the range of [int]. *)
Theorem convert_flags_result_is_int (h : host) (F B : Z) :
  host_in_range h ->
  CInt.in_range B ->
  CInt.in_range (mono_dl_convert_flags h F B).
Proof.
  intros Hh HB. destruct h as [| dl]; [exact HB |].
  destruct Hh as (Hlazy & Hnow & Hglobal & Hlocal).
  by_conditions; auto using lor_in_range.
Qed.

(** X5.  On a host with loader flags the result always has one of the
    two scope flags and one of the two binding flags in full, whatever
    the portable flag word and the baseline are. *)
Theorem convert_flags_scope_and_binding_present (dl : dlfcn_h) (F B : Z) :
  (has_flag RTLD_GLOBAL (mono_dl_convert_flags (HOST_DLFCN dl) F B)
   \/ has_flag RTLD_LOCAL (mono_dl_convert_flags (HOST_DLFCN dl) F B))
  /\ (has_flag RTLD_LAZY (mono_dl_convert_flags (HOST_DLFCN dl) F B)
      \/ has_flag RTLD_NOW (mono_dl_convert_flags (HOST_DLFCN dl) F B)).
Proof.
  unfold has_flag.
  by_conditions; (split; [first [left; bitwise | right; bitwise]
                         | first [left; bitwise | right; bitwise]]).
Qed.

(** X6.  The translator invents no bit: a bit set in the result is set
    in the baseline or in one of the host's loader flags, and on a host
    without loader flags in the baseline. *)
Theorem convert_flags_no_other_bit (h : host) (F B n : Z) :
  Z.testbit (mono_dl_convert_flags h F B) n = true ->
  Z.testbit B n = true \/ Z.testbit (host_bits h) n = true.
Proof.
  destruct h as [| dl]; [cbn; auto |].
  unfold host_bits. by_conditions; rewrite !Z.lor_spec;
    repeat match goal with
           | |- context [Z.testbit ?a ?n] => destruct (Z.testbit a n)
           end; cbn; auto.
Qed.

End ConvertFlagsAlgebra.

(** X7.  Masking the portable flag word down to the three flags the
    translator knows changes nothing: every other bit of the word can be
    cleared before the call. *)
Theorem convert_flags_masked {portable : mono_dl_h} (h : host) (F B : Z) :
  mono_dl_convert_flags h
    (Z.land F (Z.lor MONO_DL_GLOBAL (Z.lor MONO_DL_LOCAL MONO_DL_LAZY))) B
  = mono_dl_convert_flags h F B.
Proof.
  assert (forall flag : Z,
             Z.land (Z.lor MONO_DL_GLOBAL (Z.lor MONO_DL_LOCAL MONO_DL_LAZY)) flag
             = flag ->
             Z.land (Z.land F (Z.lor MONO_DL_GLOBAL
                                 (Z.lor MONO_DL_LOCAL MONO_DL_LAZY))) flag
             = Z.land F flag) as Hmask.
  { intros flag Hflag. now rewrite <- Z.land_assoc, Hflag. }
  apply convert_flags_same_requests; unfold requests;
    rewrite Hmask; try reflexivity; bitwise.
Qed.

(** The translator on the sample values, over an [int] baseline and
    with the sign bit of the baseline set. *)
Lemma convert_flags_result_is_int_witness :
  (host_in_range (HOST_DLFCN dlfcn_four_bits) /\ CInt.in_range (-4096))
  /\ CInt.in_range
       (mono_dl_convert_flags (portable := portable_bits)
          (HOST_DLFCN dlfcn_four_bits) 5 (-4096)).
Proof.
  assert (host_in_range (HOST_DLFCN dlfcn_four_bits)) as Hh
    by (repeat split; vm_compute; discriminate).
  assert (CInt.in_range (-4096)) as HB
    by (split; vm_compute; discriminate).
  split; [exact (conj Hh HB) |].
  exact (convert_flags_result_is_int (portable := portable_bits)
           (HOST_DLFCN dlfcn_four_bits) 5 (-4096) Hh HB).
Defined.

(** Bit 3 of the translation of GLOBAL over the baseline [0x1000] is
    the host's [RTLD_GLOBAL], not a bit of the baseline. *)
Lemma convert_flags_no_other_bit_witness :
  Z.testbit (mono_dl_convert_flags (portable := portable_bits)
               (HOST_DLFCN dlfcn_four_bits) 4 4096) 3 = true
  /\ (Z.testbit 4096 3 = true
      \/ Z.testbit (host_bits (HOST_DLFCN dlfcn_four_bits)) 3 = true).
Proof.
  assert (Z.testbit (mono_dl_convert_flags (portable := portable_bits)
                       (HOST_DLFCN dlfcn_four_bits) 4 4096) 3 = true) as Hbit
    by reflexivity.
  split; [exact Hbit |].
  exact (convert_flags_no_other_bit (portable := portable_bits)
           (HOST_DLFCN dlfcn_four_bits) 4 4096 3 Hbit).
Defined.

(** ** Further properties of the platform-shape queries *)

Lemma append_empty_r (s : string) : s +:+ EmptyString = s.
Proof.
  induction s as [| c s IH]; [reflexivity |].
  change (String c (s +:+ EmptyString) = String c s). now rewrite IH.
Qed.

Lemma length_append (s t : string) :
  String.length (s +:+ t) = (String.length s + String.length t)%nat.
Proof.
  induction s as [| c s IH]; [reflexivity |].
  change (S (String.length (s +:+ t))
          = S (String.length s + String.length t)). now rewrite IH.
Qed.

(** X8.  Decorating a library name with the prefix in front and each
    suffix behind, in the order of the suffix list, gives two different
    candidates for every name: the name followed by [".wasm"], then the
    name itself unchanged. *)
Theorem so_candidates (prefix name : string) :
  mono_dl_get_so_prefix = Some prefix ->
  map (fun suffix : string => prefix +:+ name +:+ suffix)
      mono_dl_get_so_suffixes
  = (name +:+ ".wasm") :: name :: nil
  /\ name +:+ ".wasm" <> name.
Proof.
  intros Hprefix. injection Hprefix as <-. split.
  - change (((name +:+ ".wasm") :: (name +:+ EmptyString) :: nil)
            = ((name +:+ ".wasm") :: name :: nil)).
    now rewrite append_empty_r.
  - intros Heq. apply (f_equal String.length) in Heq.
    rewrite length_append in Heq. cbn in Heq. lia.
Qed.

Lemma so_candidates_witness :
  mono_dl_get_so_prefix = Some EmptyString
  /\ map (fun suffix : string => EmptyString +:+ "libfoo" +:+ suffix)
       mono_dl_get_so_suffixes
     = "libfoo.wasm"%string :: "libfoo"%string :: nil.
Proof.
  split; [reflexivity |].
  exact (proj1 (so_candidates EmptyString "libfoo" eq_refl)).
Defined.

(** ** Which request reaches which bit *)

Section ConvertFlagsSeparation.

Context {portable : mono_dl_h}.

(** X9.  The LAZY request reaches the binding bits only: two flag words
    that request the same scope flags are translated to results that
    agree on every bit outside [RTLD_LAZY] and [RTLD_NOW]. *)
Theorem convert_flags_lazy_only_binding (dl : dlfcn_h) (F1 F2 B n : Z) :
  (requests MONO_DL_GLOBAL F1 <-> requests MONO_DL_GLOBAL F2) ->
  (requests MONO_DL_LOCAL F1 <-> requests MONO_DL_LOCAL F2) ->
  Z.testbit RTLD_LAZY n = false ->
  Z.testbit RTLD_NOW n = false ->
  Z.testbit (mono_dl_convert_flags (HOST_DLFCN dl) F1 B) n
  = Z.testbit (mono_dl_convert_flags (HOST_DLFCN dl) F2 B) n.
Proof.
  intros Hg Hl Hlazy Hnow.
  rewrite !mono_dl_convert_flags_dlfcn.
  destruct (truth_spec MONO_DL_GLOBAL F1), (truth_spec MONO_DL_GLOBAL F2);
    try tauto;
    destruct (truth_spec MONO_DL_LOCAL F1), (truth_spec MONO_DL_LOCAL F2);
    try tauto; cbn [andb negb];
    repeat match goal with
           | |- context [CInt.truth ?c] => destruct (CInt.truth c)
           end;
    rewrite !Z.lor_spec, ?Hlazy, ?Hnow; reflexivity.
Qed.

(** X10.  The GLOBAL and LOCAL requests reach the scope bits only: two
    flag words that agree on the LAZY request are translated to results
    that agree on every bit outside [RTLD_GLOBAL] and [RTLD_LOCAL]. *)
Theorem convert_flags_scope_only_scope (dl : dlfcn_h) (F1 F2 B n : Z) :
  (requests MONO_DL_LAZY F1 <-> requests MONO_DL_LAZY F2) ->
  Z.testbit RTLD_GLOBAL n = false ->
  Z.testbit RTLD_LOCAL n = false ->
  Z.testbit (mono_dl_convert_flags (HOST_DLFCN dl) F1 B) n
  = Z.testbit (mono_dl_convert_flags (HOST_DLFCN dl) F2 B) n.
Proof.
  intros Hz Hglobal Hlocal.
  rewrite !mono_dl_convert_flags_dlfcn.
  destruct (truth_spec MONO_DL_LAZY F1), (truth_spec MONO_DL_LAZY F2);
    try tauto;
    repeat match goal with
           | |- context [if ?c then _ else _] => destruct c
           end;
    rewrite !Z.lor_spec, ?Hglobal, ?Hlocal; reflexivity.
Qed.

End ConvertFlagsSeparation.

(** GLOBAL with and without LAZY, on the host whose flags are four bits:
    bit 3, the host's [RTLD_GLOBAL], is the same in both results. *)
Lemma convert_flags_lazy_only_binding_witness :
  ((requests (@MONO_DL_GLOBAL portable_bits) 4
    <-> requests (@MONO_DL_GLOBAL portable_bits) 5)
   /\ (requests (@MONO_DL_LOCAL portable_bits) 4
       <-> requests (@MONO_DL_LOCAL portable_bits) 5)
   /\ Z.testbit (@RTLD_LAZY dlfcn_four_bits) 3 = false
   /\ Z.testbit (@RTLD_NOW dlfcn_four_bits) 3 = false)
  /\ Z.testbit (mono_dl_convert_flags (portable := portable_bits)
                  (HOST_DLFCN dlfcn_four_bits) 4 0) 3
     = Z.testbit (mono_dl_convert_flags (portable := portable_bits)
                    (HOST_DLFCN dlfcn_four_bits) 5 0) 3.
Proof.
  assert (requests (@MONO_DL_GLOBAL portable_bits) 4
          <-> requests (@MONO_DL_GLOBAL portable_bits) 5) as Hg
    by (split; intros _; vm_compute; discriminate).
  assert (requests (@MONO_DL_LOCAL portable_bits) 4
          <-> requests (@MONO_DL_LOCAL portable_bits) 5) as Hl
    by (split; intros H; exfalso; apply H; reflexivity).
  split; [repeat split; solve [apply Hg | apply Hl] |].
  exact (convert_flags_lazy_only_binding (portable := portable_bits)
           dlfcn_four_bits 4 5 0 3 Hg Hl eq_refl eq_refl).
Defined.

(** LAZY with GLOBAL and LAZY with LOCAL: bit 0, the host's
    [RTLD_LAZY], is the same in both results. *)
Lemma convert_flags_scope_only_scope_witness :
  ((requests (@MONO_DL_LAZY portable_bits) 5
    <-> requests (@MONO_DL_LAZY portable_bits) 3)
   /\ Z.testbit (@RTLD_GLOBAL dlfcn_four_bits) 0 = false
   /\ Z.testbit (@RTLD_LOCAL dlfcn_four_bits) 0 = false)
  /\ Z.testbit (mono_dl_convert_flags (portable := portable_bits)
                  (HOST_DLFCN dlfcn_four_bits) 5 0) 0
     = Z.testbit (mono_dl_convert_flags (portable := portable_bits)
                    (HOST_DLFCN dlfcn_four_bits) 3 0) 0.
Proof.
  assert (requests (@MONO_DL_LAZY portable_bits) 5
          <-> requests (@MONO_DL_LAZY portable_bits) 3) as Hz
    by (split; intros _; vm_compute; discriminate).
  split; [split; [exact Hz | split; reflexivity] |].
  exact (convert_flags_scope_only_scope (portable := portable_bits)
           dlfcn_four_bits 5 3 0 0 Hz eq_refl eq_refl).
Defined.
